(** * Run-control layer of zemu (src/debug.c, src/debug.h)

    A shallow embedding of the debugger core of zemu: the process-wide run
    state and breakpoint array, [zemu_debug_continue], [zemu_debug_step],
    [zemu_debug_halt], [zemu_debug_set_breakpoint], [zemu_debug_register]
    and the two observers.  The Z80 core ([z80_run]) is an external library;
    it is a parameter of the development. *)

From Stdlib Require Import ZArith List Bool Lia.
Import ListNotations.
Open Scope Z_scope.

(** ** Data model *)

(** [RunState] of debug.h. *)
Inductive RunState := RUNNING | HALTED | BREAK | UNDEFINED.

Definition RunState_eqb (a b : RunState) : bool :=
  match a, b with
  | RUNNING, RUNNING | HALTED, HALTED | BREAK, BREAK
  | UNDEFINED, UNDEFINED => true
  | _, _ => false
  end.

Lemma RunState_eqb_spec a b : RunState_eqb a b = true <-> a = b.
Proof. destruct a, b; simpl; split; congruence. Qed.

(** The register file of the Z80 library ([instance->state]).  Every
    register is a 16-bit value; the register pairs are [Z16] unions whose
    byte view [values_uint8] has [index1] as the high byte and [index0] as
    the low byte (A = af.index1, F = af.index0 in the Z80 core). *)
Record Z80State := mkZ80State {
  pc : Z; sp : Z; ix : Z; iy : Z;
  af : Z; bc : Z; de : Z; hl : Z;
  af_ : Z; bc_ : Z; de_ : Z; hl_ : Z
}.

Definition index1 (v : Z) : Z := Z.land (Z.shiftr v 8) 255.
Definition index0 (v : Z) : Z := Z.land v 255.

(** [ZEMU_DEBUG_MAX_BREAKPOINTS], default value of debug.h. *)
Definition ZEMU_DEBUG_MAX_BREAKPOINTS : nat := 256.

(** Width of [zusize] ([size_t]); [cycles += ...] wraps modulo 2^64. *)
Definition zusize_modulus : Z := 2 ^ 64.

(** The global variables of debug.c: [zemu_debug_state], the static array
    [breakpoints] (its [ZEMU_DEBUG_MAX_BREAKPOINTS] cells) and
    [breakpoint_count]. *)
Record Debug := mkDebug {
  zemu_debug_state : RunState;
  breakpoints : list Z;
  breakpoint_count : nat
}.

(** Program start: [UNDEFINED], a zero-initialised static array, count 0. *)
Definition debug_init : Debug :=
  mkDebug UNDEFINED (repeat 0 ZEMU_DEBUG_MAX_BREAKPOINTS) 0.

Definition set_state (d : Debug) (s : RunState) : Debug :=
  mkDebug s (breakpoints d) (breakpoint_count d).

(** Result of a C statement that may have undefined behaviour. *)
Inductive Outcome (A : Type) :=
| Defined (a : A)
| UndefinedBehaviour.
Arguments Defined {A} a.
Arguments UndefinedBehaviour {A}.

(** [arr[i] = v] on an array of [length arr] cells; [None] when [i] is
    outside the array. *)
Fixpoint array_store (arr : list Z) (i : nat) (v : Z) : option (list Z) :=
  match arr, i with
  | [], _ => None
  | _ :: t, O => Some (v :: t)
  | x :: t, S j => option_map (cons x) (array_store t j v)
  end.

(** ** Operations *)

(** [zemu_debug_halt]: the halt callback handed to the Z80 core; its
    [context] argument is unused. *)
Definition zemu_debug_halt (d : Debug) (state : bool) : Debug :=
  if state then set_state d HALTED else set_state d RUNNING.

Definition zemu_debug_halted (d : Debug) : bool :=
  RunState_eqb (zemu_debug_state d) HALTED.

Definition zemu_debug_break (d : Debug) : bool :=
  RunState_eqb (zemu_debug_state d) BREAK.

(** [zemu_debug_set_breakpoint]: an unchecked store at index
    [breakpoint_count], then the increment. *)
Definition zemu_debug_set_breakpoint (address : Z) (d : Debug) : Outcome Debug :=
  match array_store (breakpoints d) (breakpoint_count d) address with
  | Some arr => Defined (mkDebug (zemu_debug_state d) arr (S (breakpoint_count d)))
  | None => UndefinedBehaviour
  end.

(** A sequence of [zemu_debug_set_breakpoint] calls, in order. *)
Fixpoint set_breakpoints (addrs : list Z) (d : Debug) : Outcome Debug :=
  match addrs with
  | [] => Defined d
  | a :: rest =>
      match zemu_debug_set_breakpoint a d with
      | Defined d' => set_breakpoints rest d'
      | UndefinedBehaviour => UndefinedBehaviour
      end
  end.

(** The inner [for] loop of [zemu_debug_continue]: every slot
    [b < breakpoint_count] equal to the PC sets the state to [BREAK]. *)
Definition check_breakpoints (pcv : Z) (d : Debug) : Debug :=
  fold_left
    (fun d' b => if pcv =? nth b (breakpoints d) 0 then set_state d' BREAK else d')
    (seq 0 (breakpoint_count d)) d.

(** Membership as that loop decides it. *)
Definition breakpoint_member (pcv : Z) (d : Debug) : bool :=
  existsb (fun b => pcv =? nth b (breakpoints d) 0) (seq 0 (breakpoint_count d)).

(** [zemu_debug_register]. *)
Definition zemu_debug_register (s : Z80State) (r : Z) : Z :=
  match r with
  | 0 => pc s
  | 1 => sp s
  | 2 => iy s
  | 3 => ix s
  | 4 => index1 (af s)
  | 5 => index0 (af s)
  | 6 => index1 (bc s)
  | 7 => index0 (bc s)
  | 8 => index1 (de s)
  | 9 => index0 (de s)
  | 10 => index1 (hl s)
  | 11 => index0 (hl s)
  | 12 => index1 (af_ s)
  | 13 => index0 (af_ s)
  | 14 => index1 (bc_ s)
  | 15 => index0 (bc_ s)
  | 16 => index1 (de_ s)
  | 17 => index0 (de_ s)
  | 18 => index1 (hl_ s)
  | 19 => index0 (hl_ s)
  | _ => 65535
  end.

Section Machine.

(** The emulated machine as the Z80 core sees it: the [Z80] instance and
    whatever [z80_run] reaches through it (memory, I/O). *)
Variable Machine : Type.
Variable z80_state : Machine -> Z80State.

(** [z80_run instance cycles]: the cycles consumed, the machine afterwards,
    and the arguments of the calls the core made to its halt callback
    ([zemu_debug_halt]) during the run, in order. *)
Variable z80_run : Machine -> Z -> Z * Machine * list bool.

Definition apply_halts (d : Debug) (hs : list bool) : Debug :=
  fold_left zemu_debug_halt hs d.

(** [zemu_debug_step]: [z80_run(instance, 1)]. *)
Definition zemu_debug_step (m : Machine) (d : Debug) : Z * Machine * Debug :=
  let '(cycles, m', hs) := z80_run m 1 in (cycles, m', apply_halts d hs).

(** The [while] condition of [zemu_debug_continue]. *)
Definition loop_cond (run_cycles cycles : Z) (d : Debug) : bool :=
  RunState_eqb (zemu_debug_state d) RUNNING
  && ((run_cycles <? 0) || (cycles <? run_cycles)).

(** One iteration of the [while] body. *)
Definition loop_body (st : Z * Machine * Debug) : Z * Machine * Debug :=
  let '(cycles, m, d) := st in
  let '(c, m', d') := zemu_debug_step m d in
  ((cycles + c) mod zusize_modulus, m', check_breakpoints (pc (z80_state m')) d').

(** The [while] loop; [fuel] bounds the number of condition tests, [None]
    means the loop is still running when the fuel is spent. *)
Fixpoint continue_loop (fuel : nat) (run_cycles : Z) (st : Z * Machine * Debug)
  : option (Z * Machine * Debug) :=
  match fuel with
  | O => None
  | S f =>
      let '(cycles, _, d) := st in
      if loop_cond run_cycles cycles d
      then continue_loop f run_cycles (loop_body st)
      else Some st
  end.

(** [zemu_debug_continue]. *)
Definition zemu_debug_continue (fuel : nat) (m : Machine) (d : Debug) (run_cycles : Z)
  : option (Z * Machine * Debug) :=
  if RunState_eqb (zemu_debug_state d) HALTED then Some (0, m, d)
  else continue_loop fuel run_cycles (0, m, set_state d RUNNING).

(** The loop body iterated [k] times, regardless of the condition. *)
Fixpoint run_n (k : nat) (st : Z * Machine * Debug) : Z * Machine * Debug :=
  match k with
  | O => st
  | S j => loop_body (run_n j st)
  end.

(** The machine alone after [k] calls of [z80_run m 1] (the core does not
    read the debugger state). *)
Fixpoint machine_after (k : nat) (m : Machine) : Machine :=
  match k with
  | O => m
  | S j => snd (fst (z80_run (machine_after j m) 1))
  end.

(** Cycles reported and halt calls made by step [k + 1]. *)
Definition step_cost (k : nat) (m : Machine) : Z := fst (fst (z80_run (machine_after k m) 1)).
Definition step_halts (k : nat) (m : Machine) : list bool := snd (z80_run (machine_after k m) 1).

(** The [cycles] variable of [zemu_debug_continue] after [k] steps. *)
Fixpoint cycles_after (k : nat) (m : Machine) : Z :=
  match k with
  | O => 0
  | S j => (cycles_after j m + step_cost j m) mod zusize_modulus
  end.

End Machine.

Arguments zemu_debug_step {Machine} z80_run m d.
Arguments loop_body {Machine} z80_state z80_run st.
Arguments continue_loop {Machine} z80_state z80_run fuel run_cycles st.
Arguments zemu_debug_continue {Machine} z80_state z80_run fuel m d run_cycles.
Arguments run_n {Machine} z80_state z80_run k st.
Arguments machine_after {Machine} z80_run k m.
Arguments step_cost {Machine} z80_run k m.
Arguments step_halts {Machine} z80_run k m.
Arguments cycles_after {Machine} z80_run k m.

(** ** A concrete machine for the examples

    A program counter that starts at 0x0000, is 0x0010 after four
    instructions and 0x0020 from the fifth on; each instruction costs four
    cycles (more when more are requested) and never calls the halt
    callback.  The machine is the number of
    instructions executed so far. *)
Module Toy.

Definition toy_pc (n : nat) : Z :=
  if (n <? 4)%nat then Z.of_nat n else if (n =? 4)%nat then 16 else 32.

Definition toy_state (n : nat) : Z80State :=
  mkZ80State (toy_pc n) 65534 4660 22136 4591 8755 17493 26231 2 3 4 5.

Definition toy_run (n : nat) (cycles : Z) : Z * nat * list bool := (Z.max 4 cycles, S n, []).

(** A second program that requests a halt in its second instruction. *)
(** The debugger after [zemu_debug_set_breakpoint(0x0010)] from start up. *)
Definition toy_debug : Debug := mkDebug UNDEFINED (16 :: repeat 0 255) 1.

(** ... and after [zemu_debug_set_breakpoint(0x0010)],
    [zemu_debug_set_breakpoint(0x0001)]. *)
Definition toy_debug2 : Debug := mkDebug UNDEFINED (16 :: 1 :: repeat 0 254) 2.

(** ... and after [zemu_debug_set_breakpoint(0x0020)], the address the
    program stays on from its fifth instruction on. *)
Definition toy_debug_loop : Debug := mkDebug UNDEFINED (32 :: repeat 0 255) 1.

Definition toy_run_halting (n : nat) (cycles : Z) : Z * nat * list bool :=
  (Z.max 4 cycles, S n, if (n =? 1)%nat then [true] else []).

End Toy.

(** ** General lemmas *)

Lemma set_state_state d s : zemu_debug_state (set_state d s) = s.
Proof. reflexivity. Qed.

Lemma halt_keeps_breakpoints d b :
  breakpoints (zemu_debug_halt d b) = breakpoints d
  /\ breakpoint_count (zemu_debug_halt d b) = breakpoint_count d.
Proof. destruct b; split; reflexivity. Qed.

Lemma index_byte_bound v : 0 <= Z.land v 255 <= 255.
Proof.
  assert (E : Z.land v 255 = v mod 2 ^ 8) by (apply (Z.land_ones v 8); lia).
  rewrite E. pose proof (Z.mod_pos_bound v (2 ^ 8)). lia.
Qed.

(** ** Claims *)

(** C2: when the run state is [HALTED], [zemu_debug_continue] returns 0 for
    any budget, performs no step (the machine and the debugger state are
    returned unchanged, so the state stays [HALTED]); only [halt(false)]
    brings the state back to [RUNNING]. *)
Theorem continue_halted_is_noop {Machine} (z80_state : Machine -> Z80State) z80_run
    (fuel : nat) (m : Machine) (d : Debug) (run_cycles : Z) :
  zemu_debug_state d = HALTED ->
  zemu_debug_continue z80_state z80_run fuel m d run_cycles = Some (0, m, d)
  /\ zemu_debug_state (zemu_debug_halt d false) = RUNNING.
Proof.
  intros H. unfold zemu_debug_continue. rewrite H. split; reflexivity.
Qed.

Lemma continue_halted_is_noop_witness :
  zemu_debug_continue Toy.toy_state Toy.toy_run 5 0%nat (set_state debug_init HALTED) (-1)
    = Some (0, 0%nat, set_state debug_init HALTED)
  /\ zemu_debug_state (zemu_debug_halt (set_state debug_init HALTED) false) = RUNNING.
Proof. apply continue_halted_is_noop. reflexivity. Defined.

(** C10: when the run state is not [HALTED], [zemu_debug_continue] with a
    budget of 0 returns 0 without any step (machine unchanged) and leaves the
    run state [RUNNING], also when it was [BREAK] before. *)
Theorem continue_zero_budget {Machine} (z80_state : Machine -> Z80State) z80_run
    (fuel : nat) (m : Machine) (d : Debug) :
  zemu_debug_state d <> HALTED -> (1 <= fuel)%nat ->
  zemu_debug_continue z80_state z80_run fuel m d 0 = Some (0, m, set_state d RUNNING).
Proof.
  intros Hh Hf. unfold zemu_debug_continue.
  destruct (RunState_eqb (zemu_debug_state d) HALTED) eqn:E.
  - apply RunState_eqb_spec in E. contradiction.
  - destruct fuel as [|f]; [lia|]. reflexivity.
Qed.

Lemma continue_zero_budget_witness :
  zemu_debug_continue Toy.toy_state Toy.toy_run 1 0%nat (set_state debug_init BREAK) 0
    = Some (0, 0%nat, set_state (set_state debug_init BREAK) RUNNING).
Proof. apply continue_zero_budget; [simpl; discriminate | apply le_n]. Defined.

(** C7: if [z80_run] consumes at least the requested number of cycles, then
    [zemu_debug_step] reports at least one cycle, whatever the machine. *)
Theorem step_at_least_one_cycle {Machine} (z80_run : Machine -> Z -> Z * Machine * list bool) :
  (forall m n, n <= fst (fst (z80_run m n))) ->
  forall m d, 1 <= fst (fst (zemu_debug_step z80_run m d)).
Proof.
  intros Hrun m d. unfold zemu_debug_step.
  specialize (Hrun m 1). destruct (z80_run m 1) as [[c m'] hs]. simpl in *. exact Hrun.
Qed.

Lemma step_at_least_one_cycle_witness :
  1 <= fst (fst (zemu_debug_step Toy.toy_run 0%nat debug_init)).
Proof. apply step_at_least_one_cycle. intros m n. simpl. lia. Defined.

(** C5 as stated puts IX at id 2 and IY at id 3; the code returns IY for
    id 2 and IX for id 3. *)
Lemma register_ids_2_3_not_ix_iy :
  ~ (forall s, zemu_debug_register s 2 = ix s /\ zemu_debug_register s 3 = iy s).
Proof.
  intros H. destruct (H (Toy.toy_state 0)) as [H2 _]. discriminate H2.
Qed.

(** C5 (amended): ids 0..3 read PC, SP, IY, IX in that order; ids 4..11 read
    the high ([index1]) and low ([index0]) bytes of AF, BC, DE, HL; ids
    12..19 the same bytes of AF', BC', DE', HL'; the 8-bit results are
    zero-extended bytes. *)
Theorem register_mapping (s : Z80State) :
  zemu_debug_register s 0 = pc s /\ zemu_debug_register s 1 = sp s
  /\ zemu_debug_register s 2 = iy s /\ zemu_debug_register s 3 = ix s
  /\ zemu_debug_register s 4 = index1 (af s) /\ zemu_debug_register s 5 = index0 (af s)
  /\ zemu_debug_register s 6 = index1 (bc s) /\ zemu_debug_register s 7 = index0 (bc s)
  /\ zemu_debug_register s 8 = index1 (de s) /\ zemu_debug_register s 9 = index0 (de s)
  /\ zemu_debug_register s 10 = index1 (hl s) /\ zemu_debug_register s 11 = index0 (hl s)
  /\ zemu_debug_register s 12 = index1 (af_ s) /\ zemu_debug_register s 13 = index0 (af_ s)
  /\ zemu_debug_register s 14 = index1 (bc_ s) /\ zemu_debug_register s 15 = index0 (bc_ s)
  /\ zemu_debug_register s 16 = index1 (de_ s) /\ zemu_debug_register s 17 = index0 (de_ s)
  /\ zemu_debug_register s 18 = index1 (hl_ s) /\ zemu_debug_register s 19 = index0 (hl_ s)
  /\ (forall r, 4 <= r <= 19 -> 0 <= zemu_debug_register s r <= 255).
Proof.
  do 20 (split; [reflexivity |]).
  intros r Hr.
  assert (Hc : r = 4 \/ r = 5 \/ r = 6 \/ r = 7 \/ r = 8 \/ r = 9 \/ r = 10 \/ r = 11
            \/ r = 12 \/ r = 13 \/ r = 14 \/ r = 15 \/ r = 16 \/ r = 17 \/ r = 18
            \/ r = 19) by lia.
  repeat destruct Hc as [-> | Hc]; subst; apply index_byte_bound.
Qed.

(** C8: every identifier other than 0..19 reads as the sentinel 0xFFFF,
    whatever the CPU state. *)
Theorem register_unknown_sentinel (s : Z80State) (r : Z) :
  (r < 0 \/ 19 < r) -> zemu_debug_register s r = 65535.
Proof.
  intros Hr. destruct r as [|p|p]; [lia | | reflexivity].
  do 6 (destruct p as [p|p|]; try reflexivity; try lia).
Qed.

Lemma register_unknown_sentinel_witness :
  zemu_debug_register (Toy.toy_state 0) 20 = 65535.
Proof. apply register_unknown_sentinel. lia. Defined.

(** C9: [zemu_debug_halt] sets the run state to [HALTED] for [true] and to
    [RUNNING] for [false], from any prior state, and keeps the breakpoint
    array and count; it takes no CPU argument, so the machine is untouched. *)
Theorem halt_sets_state_only (d : Debug) (requested : bool) :
  zemu_debug_halt d requested
  = mkDebug (if requested then HALTED else RUNNING) (breakpoints d) (breakpoint_count d).
Proof. destruct requested; reflexivity. Qed.

(** ** Breakpoint array *)

Lemma array_store_in_bounds (arr : list Z) (i : nat) (v : Z) :
  (i < length arr)%nat ->
  exists arr', array_store arr i v = Some arr'
    /\ length arr' = length arr
    /\ nth i arr' 0 = v
    /\ (forall k, k <> i -> nth k arr' 0 = nth k arr 0).
Proof.
  revert i. induction arr as [|x t IH]; intros i Hi; simpl in Hi; [lia|].
  destruct i as [|j].
  - exists (v :: t). split; [reflexivity|]. split; [reflexivity|]. split; [reflexivity|].
    intros [|k] Hk; [congruence | reflexivity].
  - destruct (IH j ltac:(lia)) as (t' & E & L & N & O).
    exists (x :: t'). simpl. rewrite E. split; [reflexivity|]. simpl. split; [lia|].
    split; [exact N|]. intros [|k] Hk; [reflexivity|]. apply O. congruence.
Qed.

Lemma array_store_out_of_bounds (arr : list Z) (i : nat) (v : Z) :
  (length arr <= i)%nat -> array_store arr i v = None.
Proof.
  revert i. induction arr as [|x t IH]; intros i Hi; [reflexivity|].
  destruct i as [|j]; simpl in Hi; [lia|]. simpl. rewrite IH by lia. reflexivity.
Qed.

Lemma breakpoint_member_nth (d : Debug) (b : nat) :
  (b < breakpoint_count d)%nat -> breakpoint_member (nth b (breakpoints d) 0) d = true.
Proof.
  intros Hb. unfold breakpoint_member. apply existsb_exists.
  exists b. split; [apply in_seq; lia | apply Z.eqb_refl].
Qed.

(** A run of insertions that stays inside the array: every call is defined,
    earlier slots are kept and the new addresses fill the next slots. *)
Lemma set_breakpoints_in_bounds (addrs : list Z) (d : Debug) :
  (breakpoint_count d + length addrs <= length (breakpoints d))%nat ->
  exists d', set_breakpoints addrs d = Defined d'
    /\ zemu_debug_state d' = zemu_debug_state d
    /\ breakpoint_count d' = (breakpoint_count d + length addrs)%nat
    /\ length (breakpoints d') = length (breakpoints d)
    /\ (forall k, (k < breakpoint_count d)%nat -> nth k (breakpoints d') 0 = nth k (breakpoints d) 0)
    /\ (forall j, (j < length addrs)%nat ->
          nth (breakpoint_count d + j) (breakpoints d') 0 = nth j addrs 0).
Proof.
  revert d. induction addrs as [|a rest IH]; intros d Hlen.
  - exists d. simpl. repeat split; try lia; try reflexivity.
  - simpl in Hlen.
    destruct (array_store_in_bounds (breakpoints d) (breakpoint_count d) a ltac:(lia))
      as (arr & E & L & N & O).
    set (d1 := mkDebug (zemu_debug_state d) arr (S (breakpoint_count d))).
    destruct (IH d1) as (d' & E' & S' & C' & L' & K' & J'); [simpl; lia|].
    exists d'. simpl. unfold zemu_debug_set_breakpoint. rewrite E. fold d1.
    split; [exact E'|]. split; [exact S'|]. split; [rewrite C'; simpl; lia|].
    split; [rewrite L'; exact L|]. split.
    + intros k Hk. rewrite K' by (simpl; lia). simpl. apply O. lia.
    + intros [|j] Hj.
      * rewrite K' by (simpl; lia). simpl. rewrite Nat.add_0_r. exact N.
      * simpl in Hj. replace (breakpoint_count d + S j)%nat with (breakpoint_count d1 + j)%nat
          by (simpl; lia).
        rewrite J' by lia. reflexivity.
Qed.

(** From the initial state, any [ZEMU_DEBUG_MAX_BREAKPOINTS] or fewer
    insertions are defined, and each inserted address is then found. *)
Theorem set_breakpoints_up_to_max (addrs : list Z) :
  (length addrs <= ZEMU_DEBUG_MAX_BREAKPOINTS)%nat ->
  exists d, set_breakpoints addrs debug_init = Defined d
    /\ breakpoint_count d = length addrs
    /\ (forall a, In a addrs -> breakpoint_member a d = true).
Proof.
  intros Hlen.
  destruct (set_breakpoints_in_bounds addrs debug_init) as (d & E & _ & C & _ & _ & J);
    [unfold debug_init; cbn [breakpoint_count breakpoints]; rewrite repeat_length; lia|].
  exists d. split; [exact E|]. split; [exact C|].
  intros a Ha. apply In_nth with (d := 0) in Ha. destruct Ha as (j & Hj & <-).
  specialize (J j Hj). simpl in J. rewrite <- J. apply breakpoint_member_nth. rewrite C. exact Hj.
Qed.

Lemma set_breakpoints_up_to_max_witness :
  exists d, set_breakpoints [16; 32] debug_init = Defined d
    /\ breakpoint_count d = length [16; 32]
    /\ (forall a, In a [16; 32] -> breakpoint_member a d = true).
Proof. apply set_breakpoints_up_to_max. unfold ZEMU_DEBUG_MAX_BREAKPOINTS. simpl. lia. Defined.

(** C3: the 257th insertion into a full array stores at index 256 of a
    256-cell array: undefined behaviour, and no error is returned. *)
Theorem set_breakpoint_257th_overflows :
  set_breakpoints (map Z.of_nat (seq 0 257)) debug_init = UndefinedBehaviour.
Proof. vm_compute. reflexivity. Qed.

(** ** The run loop *)

Lemma check_breakpoints_eq (pcv : Z) (d : Debug) :
  check_breakpoints pcv d = if breakpoint_member pcv d then set_state d BREAK else d.
Proof.
  unfold check_breakpoints, breakpoint_member.
  assert (G : forall l acc,
    fold_left (fun d' b => if pcv =? nth b (breakpoints d) 0 then set_state d' BREAK else d') l acc
    = if existsb (fun b => pcv =? nth b (breakpoints d) 0) l then set_state acc BREAK else acc).
  { induction l as [|b l IH]; intros acc; simpl; [reflexivity|].
    destruct (pcv =? nth b (breakpoints d) 0); simpl; rewrite IH;
      [destruct (existsb _ l) |]; reflexivity. }
  apply G.
Qed.

Lemma breakpoint_member_frame (pcv : Z) (d d' : Debug) :
  breakpoints d' = breakpoints d -> breakpoint_count d' = breakpoint_count d ->
  breakpoint_member pcv d' = breakpoint_member pcv d.
Proof. intros Hb Hc. unfold breakpoint_member. rewrite Hb, Hc. reflexivity. Qed.

Lemma apply_halts_frame (hs : list bool) (d : Debug) :
  breakpoints (apply_halts d hs) = breakpoints d
  /\ breakpoint_count (apply_halts d hs) = breakpoint_count d.
Proof.
  revert d. induction hs as [|h t IH]; intros d; [split; reflexivity|].
  simpl. destruct (IH (zemu_debug_halt d h)) as [A B]. rewrite A, B.
  apply halt_keeps_breakpoints.
Qed.

Lemma apply_halts_no_request (hs : list bool) (d : Debug) :
  ~ In true hs -> zemu_debug_state d = RUNNING -> zemu_debug_state (apply_halts d hs) = RUNNING.
Proof.
  revert d. induction hs as [|h t IH]; intros d Hn Hd; [exact Hd|].
  simpl. destruct h; [exfalso; apply Hn; left; reflexivity|].
  apply IH; [intros H; apply Hn; right; exact H | reflexivity].
Qed.

Lemma apply_halts_defined (hs : list bool) (d : Debug) :
  zemu_debug_state d <> UNDEFINED -> zemu_debug_state (apply_halts d hs) <> UNDEFINED.
Proof.
  revert d. induction hs as [|h t IH]; intros d Hd; [exact Hd|].
  simpl. apply IH. destruct h; discriminate.
Qed.

(** The least index satisfying a boolean predicate below a known one. *)
Lemma first_index (f : nat -> bool) (n : nat) :
  (exists i, (i <= n)%nat /\ f i = true) ->
  exists k, (k <= n)%nat /\ f k = true /\ (forall i, (i < k)%nat -> f i = false).
Proof.
  revert f. induction n as [|n IH]; intros f (i & Hi & Hf).
  - exists 0%nat. replace i with 0%nat in Hf by lia. split; [lia|]. split; [exact Hf|]. lia.
  - destruct (f 0%nat) eqn:F0.
    + exists 0%nat. split; [lia|]. split; [exact F0|]. lia.
    + destruct i as [|i]; [congruence|].
      destruct (IH (fun j => f (S j))) as (k & Hk & Fk & Lt); [exists i; split; [lia | exact Hf]|].
      exists (S k). split; [lia|]. split; [exact Fk|].
      intros [|j] Hj; [exact F0 | apply Lt; lia].
Qed.

Section Loop.
Context {Machine : Type} (z80_state : Machine -> Z80State)
        (z80_run : Machine -> Z -> Z * Machine * list bool).

Lemma loop_body_eq (c : Z) (m : Machine) (d : Debug) :
  loop_body z80_state z80_run (c, m, d) =
  ((c + fst (fst (z80_run m 1))) mod zusize_modulus, snd (fst (z80_run m 1)),
   check_breakpoints (pc (z80_state (snd (fst (z80_run m 1)))))
                     (apply_halts d (snd (z80_run m 1)))).
Proof. unfold loop_body, zemu_debug_step. destruct (z80_run m 1) as [[c' m'] hs]. reflexivity. Qed.

Lemma run_n_shift (k : nat) (st : Z * Machine * Debug) :
  run_n z80_state z80_run (S k) st = run_n z80_state z80_run k (loop_body z80_state z80_run st).
Proof. induction k as [|k IH]; [reflexivity|]. change (loop_body z80_state z80_run (run_n z80_state z80_run (S k) st) = loop_body z80_state z80_run (run_n z80_state z80_run k (loop_body z80_state z80_run st))). rewrite IH. reflexivity. Qed.

(** After [k] iterations from [(0, m, d0)]: the accumulated cycles, the
    machine after [k] instructions, and a debugger state with the same
    breakpoints. *)
Lemma run_n_components (k : nat) (m : Machine) (d0 : Debug) :
  exists d, run_n z80_state z80_run k (0, m, d0) = (cycles_after z80_run k m, machine_after z80_run k m, d)
    /\ breakpoints d = breakpoints d0 /\ breakpoint_count d = breakpoint_count d0.
Proof.
  induction k as [|k (d & E & Hb & Hc)]; [exists d0; split; [reflexivity | split; reflexivity]|].
  simpl. rewrite E, loop_body_eq.
  destruct (apply_halts_frame (snd (z80_run (machine_after z80_run k m) 1)) d) as [Ab Ac].
  eexists. split; [reflexivity|]. rewrite check_breakpoints_eq.
  destruct (breakpoint_member _ _); simpl; rewrite Ab, Ac; split; assumption.
Qed.

Lemma run_n_S_debug (k : nat) (m : Machine) (d0 : Debug) :
  snd (run_n z80_state z80_run (S k) (0, m, d0))
  = check_breakpoints (pc (z80_state (machine_after z80_run (S k) m)))
      (apply_halts (snd (run_n z80_state z80_run k (0, m, d0))) (step_halts z80_run k m)).
Proof.
  destruct (run_n_components k m d0) as (d & E & _).
  simpl. rewrite E, loop_body_eq. reflexivity.
Qed.

Lemma run_n_debug_frame (k : nat) (m : Machine) (d0 : Debug) :
  breakpoints (snd (run_n z80_state z80_run k (0, m, d0))) = breakpoints d0
  /\ breakpoint_count (snd (run_n z80_state z80_run k (0, m, d0))) = breakpoint_count d0.
Proof. destruct (run_n_components k m d0) as (d & E & Hb & Hc). rewrite E. split; assumption. Qed.

(** The loop returns the state of the first iteration whose condition fails. *)
Lemma continue_loop_exit (run_cycles : Z) (k fuel : nat) (st : Z * Machine * Debug) :
  (forall i, (i < k)%nat ->
     loop_cond run_cycles (fst (fst (run_n z80_state z80_run i st))) (snd (run_n z80_state z80_run i st)) = true) ->
  loop_cond run_cycles (fst (fst (run_n z80_state z80_run k st))) (snd (run_n z80_state z80_run k st)) = false ->
  (k < fuel)%nat ->
  continue_loop z80_state z80_run fuel run_cycles st = Some (run_n z80_state z80_run k st).
Proof.
  revert st fuel. induction k as [|k IH]; intros st fuel Hlt Hk Hf;
    (destruct fuel as [|f]; [lia|]); destruct st as [[c m] d]; cbn [continue_loop].
  - simpl in Hk. rewrite Hk. reflexivity.
  - specialize (Hlt 0%nat ltac:(lia)) as H0. simpl in H0. rewrite H0.
    rewrite run_n_shift. apply IH; [| rewrite <- run_n_shift; exact Hk | lia].
    intros i Hi. rewrite <- run_n_shift. apply Hlt. lia.
Qed.

Lemma run_n_cycles_machine (k : nat) (m : Machine) (d0 : Debug) :
  fst (fst (run_n z80_state z80_run k (0, m, d0))) = cycles_after z80_run k m
  /\ snd (fst (run_n z80_state z80_run k (0, m, d0))) = machine_after z80_run k m.
Proof. destruct (run_n_components k m d0) as (d & E & _). rewrite E. split; reflexivity. Qed.

(** The run state after step [k + 1]: [BREAK] when the new PC is a
    breakpoint, otherwise what the halt calls of that step left. *)
Lemma run_n_S_state (k : nat) (m : Machine) (d0 : Debug) :
  zemu_debug_state (snd (run_n z80_state z80_run (S k) (0, m, d0)))
  = if breakpoint_member (pc (z80_state (machine_after z80_run (S k) m))) d0 then BREAK
    else zemu_debug_state (apply_halts (snd (run_n z80_state z80_run k (0, m, d0))) (step_halts z80_run k m)).
Proof.
  rewrite run_n_S_debug, check_breakpoints_eq.
  destruct (run_n_debug_frame k m d0) as [Fb Fc].
  destruct (apply_halts_frame (step_halts z80_run k m) (snd (run_n z80_state z80_run k (0, m, d0)))) as [Ab Ac].
  rewrite (breakpoint_member_frame _ d0
    (apply_halts (snd (run_n z80_state z80_run k (0, m, d0))) (step_halts z80_run k m)))
    by (rewrite ?Ab, ?Ac; assumption).
  destruct (breakpoint_member _ d0); reflexivity.
Qed.

(** With an unbounded budget the loop can only end in [BREAK] or [HALTED]. *)
Lemma continue_loop_unbounded_end (fuel : nat) (st r : Z * Machine * Debug) :
  zemu_debug_state (snd st) <> UNDEFINED ->
  continue_loop z80_state z80_run fuel (-1) st = Some r ->
  zemu_debug_state (snd r) = BREAK \/ zemu_debug_state (snd r) = HALTED.
Proof.
  revert st. induction fuel as [|f IH]; intros st Hd Hr; [discriminate|].
  destruct st as [[c m] d]. cbn [continue_loop] in Hr.
  destruct (loop_cond (-1) c d) eqn:L.
  - apply IH in Hr; [exact Hr|]. rewrite loop_body_eq. simpl snd.
    rewrite check_breakpoints_eq. destruct (breakpoint_member _ _); [discriminate|].
    apply apply_halts_defined. exact Hd.
  - injection Hr as <-. simpl in Hd |- *. unfold loop_cond in L.
    rewrite andb_true_r in L. destruct (zemu_debug_state d); simpl in L;
      solve [discriminate | left; reflexivity | right; reflexivity | contradiction].
Qed.

End Loop.

Example toy_debug_built : set_breakpoints [16] debug_init = Defined Toy.toy_debug.
Proof. vm_compute. reflexivity. Qed.

(** With the second program a halt request ends the run after two steps,
    before the breakpoint at 0x0010 is reached. *)
Example toy_halting_stops_early :
  zemu_debug_continue Toy.toy_state Toy.toy_run_halting 10 0%nat Toy.toy_debug (-1)
  = Some (8, 2%nat, mkDebug HALTED (16 :: repeat 0 255) 1).
Proof. vm_compute. reflexivity. Qed.

(** C1 as stated fails: with breakpoints at 0x0010 and 0x0001, the toy
    program first reaches 0x0010 after step 4, yet [zemu_debug_continue]
    stops in [BREAK] after step 1, where the PC lands on 0x0001. *)
Lemma breakpoint_other_address_fires_first :
  set_breakpoints [16; 1] debug_init = Defined Toy.toy_debug2
  /\ breakpoint_member 16 Toy.toy_debug2 = true
  /\ (forall i, (i < 4)%nat -> pc (Toy.toy_state (machine_after Toy.toy_run i 0%nat)) <> 16)
  /\ pc (Toy.toy_state (machine_after Toy.toy_run 4 0%nat)) = 16
  /\ (forall fuel c d', zemu_debug_continue Toy.toy_state Toy.toy_run fuel 0%nat Toy.toy_debug2 (-1)
                        <> Some (c, machine_after Toy.toy_run 4 0%nat, d'))
  /\ zemu_debug_continue Toy.toy_state Toy.toy_run 10 0%nat Toy.toy_debug2 (-1)
     = Some (4, 1%nat, set_state Toy.toy_debug2 BREAK).
Proof.
  split; [vm_compute; reflexivity|]. split; [reflexivity|].
  split; [intros i Hi; destruct i as [|[|[|[|i]]]]; [vm_compute; discriminate .. | lia]|].
  split; [reflexivity|]. split; [|vm_compute; reflexivity].
  intros fuel c d'. destruct fuel as [|[|f]]; vm_compute; intros H; inversion H.
Qed.

(** C1 (amended): when the run state is not [HALTED], the PC lands on an
    address of the breakpoint array for the first time after step [k >= 1]
    (a breakpoint at the PC before the first step does not count), no halt
    is requested during steps 1..k-1 and the budget does not run out before,
    [zemu_debug_continue] returns after exactly [k] steps, with the cycles
    and machine of those [k] steps, in state [BREAK]: [zemu_debug_break] is
    true, [zemu_debug_halted] false, and the breakpoints are unchanged. *)
Theorem continue_stops_at_first_breakpoint {Machine} (z80_state : Machine -> Z80State) z80_run
    (fuel : nat) (m : Machine) (d : Debug) (run_cycles : Z) (k : nat) :
  zemu_debug_state d <> HALTED ->
  (1 <= k < fuel)%nat ->
  (forall i, (1 <= i < k)%nat -> breakpoint_member (pc (z80_state (machine_after z80_run i m))) d = false) ->
  breakpoint_member (pc (z80_state (machine_after z80_run k m))) d = true ->
  (forall i, (i < k - 1)%nat -> ~ In true (step_halts z80_run i m)) ->
  (run_cycles < 0 \/ forall i, (i < k)%nat -> cycles_after z80_run i m < run_cycles) ->
  exists d', zemu_debug_continue z80_state z80_run fuel m d run_cycles
             = Some (cycles_after z80_run k m, machine_after z80_run k m, d')
    /\ zemu_debug_break d' = true /\ zemu_debug_halted d' = false
    /\ breakpoints d' = breakpoints d /\ breakpoint_count d' = breakpoint_count d.
Proof.
  intros Hh Hk Hmiss Hhit Hnohalt Hbudget.
  unfold zemu_debug_continue.
  destruct (RunState_eqb (zemu_debug_state d) HALTED) eqn:E;
    [apply RunState_eqb_spec in E; contradiction|].
  set (d0 := set_state d RUNNING).
  assert (Hrun : forall i, (i < k)%nat -> zemu_debug_state (snd (run_n z80_state z80_run i (0, m, d0))) = RUNNING).
  { induction i as [|i IH]; intros Hi; [reflexivity|].
    rewrite run_n_S_state.
    replace (breakpoint_member (pc (z80_state (machine_after z80_run (S i) m))) d0) with false
      by (symmetry; apply (Hmiss (S i)); lia).
    apply apply_halts_no_request; [apply Hnohalt; lia | apply IH; lia]. }
  assert (Hbrk : zemu_debug_state (snd (run_n z80_state z80_run k (0, m, d0))) = BREAK).
  { destruct k as [|j]; [lia|]. rewrite run_n_S_state.
    replace (breakpoint_member (pc (z80_state (machine_after z80_run (S j) m))) d0) with true
      by (symmetry; exact Hhit).
    reflexivity. }
  rewrite (continue_loop_exit z80_state z80_run run_cycles k fuel (0, m, d0)).
  - destruct (run_n_components z80_state z80_run k m d0) as (dk & Ek & Bk & Ck).
    rewrite Ek in Hbrk |- *. simpl in Hbrk. exists dk.
    split; [reflexivity|]. unfold zemu_debug_break, zemu_debug_halted. rewrite Hbrk.
    split; [reflexivity|]. split; [reflexivity|]. split; assumption.
  - intros i Hi. unfold loop_cond. rewrite Hrun by exact Hi. simpl.
    destruct Hbudget as [Hneg | Hlt].
    + apply Z.ltb_lt in Hneg. rewrite Hneg. reflexivity.
    + destruct (run_n_cycles_machine z80_state z80_run i m d0) as [-> _].
      apply orb_true_intro. right. apply Z.ltb_lt. apply Hlt. exact Hi.
  - unfold loop_cond. rewrite Hbrk. reflexivity.
  - lia.
Qed.

Lemma continue_stops_at_first_breakpoint_witness :
  exists d', zemu_debug_continue Toy.toy_state Toy.toy_run 10 0%nat Toy.toy_debug (-1)
             = Some (cycles_after Toy.toy_run 4 0%nat, machine_after Toy.toy_run 4 0%nat, d')
    /\ zemu_debug_break d' = true /\ zemu_debug_halted d' = false
    /\ breakpoints d' = breakpoints Toy.toy_debug
    /\ breakpoint_count d' = breakpoint_count Toy.toy_debug.
Proof.
  apply continue_stops_at_first_breakpoint.
  - discriminate.
  - lia.
  - intros i Hi. destruct i as [|[|[|[|i]]]]; [lia | vm_compute; reflexivity .. | lia].
  - vm_compute. reflexivity.
  - intros i _ H. exact H.
  - left. lia.
Defined.

(** C4: with a budget [0 <= N] (a [zinteger]), step costs of at least one
    cycle (the contract of [z80_run]) that fit in 32 bits, and no breakpoint
    hit or halt request after a step that leaves the accumulated cycles
    below [N] (at that step and at every earlier one, so that steps after
    the stop are not constrained), [zemu_debug_continue] returns at the first step boundary [k]
    whose accumulated cycles [C] reach [N]: [N <= C], and [C] exceeds [N] by
    less than the cost of the last step (or [C = N = 0] when no step ran). *)
Theorem continue_budget_first_boundary {Machine} (z80_state : Machine -> Z80State) z80_run
    (fuel : nat) (m : Machine) (d : Debug) (N : Z) :
  zemu_debug_state d <> HALTED ->
  0 <= N < 2 ^ 63 ->
  (forall i, 1 <= step_cost z80_run i m < 2 ^ 32) ->
  (forall i, (forall j, (j <= S i)%nat -> cycles_after z80_run j m < N) ->
     breakpoint_member (pc (z80_state (machine_after z80_run (S i) m))) d = false
     /\ ~ In true (step_halts z80_run i m)) ->
  (Z.to_nat N < fuel)%nat ->
  exists k d', zemu_debug_continue z80_state z80_run fuel m d N
               = Some (cycles_after z80_run k m, machine_after z80_run k m, d')
    /\ (forall i, (i < k)%nat -> cycles_after z80_run i m < N)
    /\ N <= cycles_after z80_run k m
    /\ ((k = 0%nat /\ cycles_after z80_run k m = N)
        \/ ((1 <= k)%nat /\ cycles_after z80_run k m < N + step_cost z80_run (k - 1) m)).
Proof.
  intros Hh HN Hcost Hquiet Hfuel.
  (* below the budget the accumulator does not wrap and grows by >= 1 *)
  assert (Hstep : forall i, 0 <= cycles_after z80_run i m < N ->
            cycles_after z80_run (S i) m = cycles_after z80_run i m + step_cost z80_run i m).
  { intros i Hi. cbn [cycles_after]. apply Z.mod_small. unfold zusize_modulus.
    specialize (Hcost i). lia. }
  assert (Hgrow : forall i, (forall j, (j < i)%nat -> cycles_after z80_run j m < N) ->
            Z.of_nat i <= cycles_after z80_run i m).
  { induction i as [|i IH]; intros Hb; [simpl; lia|].
    assert (Hi : Z.of_nat i <= cycles_after z80_run i m) by (apply IH; intros j Hj; apply Hb; lia).
    rewrite Hstep by (split; [lia | apply Hb; lia]). specialize (Hcost i). lia. }
  set (f := fun i => N <=? cycles_after z80_run i m).
  destruct (first_index f (Z.to_nat N)) as (k & Hkn & Hfk & Hbefore).
  { destruct (existsb f (seq 0 (Z.to_nat N))) eqn:Ex.
    - apply existsb_exists in Ex. destruct Ex as (i & Hi & Fi). apply in_seq in Hi.
      exists i. split; [lia | exact Fi].
    - exists (Z.to_nat N). split; [lia|]. unfold f. apply Z.leb_le.
      assert (G := Hgrow (Z.to_nat N)). rewrite Z2Nat.id in G by lia. apply G.
      intros j Hj. destruct (f j) eqn:Fj.
      + exfalso. assert (existsb f (seq 0 (Z.to_nat N)) = true) by
          (apply existsb_exists; exists j; split; [apply in_seq; lia | exact Fj]). congruence.
      + unfold f in Fj. apply Z.leb_gt in Fj. exact Fj. }
  assert (Hlt : forall i, (i < k)%nat -> cycles_after z80_run i m < N).
  { intros i Hi. specialize (Hbefore i Hi). unfold f in Hbefore. apply Z.leb_gt. exact Hbefore. }
  unfold f in Hfk. apply Z.leb_le in Hfk.
  unfold zemu_debug_continue.
  destruct (RunState_eqb (zemu_debug_state d) HALTED) eqn:E;
    [apply RunState_eqb_spec in E; contradiction|].
  set (d0 := set_state d RUNNING).
  assert (Hrun : forall i, (i < k)%nat -> zemu_debug_state (snd (run_n z80_state z80_run i (0, m, d0))) = RUNNING).
  { induction i as [|i IH]; intros Hi; [reflexivity|].
    destruct (Hquiet i (fun j Hj => Hlt j ltac:(lia))) as [Hmiss Hnohalt].
    rewrite run_n_S_state.
    replace (breakpoint_member (pc (z80_state (machine_after z80_run (S i) m))) d0) with false
      by (symmetry; exact Hmiss).
    apply apply_halts_no_request; [exact Hnohalt | apply IH; lia]. }
  rewrite (continue_loop_exit z80_state z80_run N k fuel (0, m, d0)).
  - destruct (run_n_components z80_state z80_run k m d0) as (dk & Ek & _).
    rewrite Ek. exists k, dk. split; [reflexivity|]. split; [exact Hlt|]. split; [exact Hfk|].
    destruct k as [|j]; [left; simpl in Hfk |- *; split; [reflexivity | lia]|].
    right. split; [lia|]. replace (S j - 1)%nat with j by lia.
    assert (Hj : Z.of_nat j <= cycles_after z80_run j m) by (apply Hgrow; intros i Hi; apply Hlt; lia).
    rewrite Hstep by (split; [lia | apply Hlt; lia]).
    specialize (Hlt j ltac:(lia)). lia.
  - intros i Hi. unfold loop_cond. rewrite Hrun by exact Hi.
    destruct (run_n_cycles_machine z80_state z80_run i m d0) as [-> _].
    simpl. apply orb_true_intro. right. apply Z.ltb_lt. apply Hlt. exact Hi.
  - unfold loop_cond. destruct (run_n_cycles_machine z80_state z80_run k m d0) as [-> _].
    replace (N <? 0) with false by (symmetry; apply Z.ltb_ge; lia).
    replace (cycles_after z80_run k m <? N) with false by (symmetry; apply Z.ltb_ge; lia).
    apply andb_false_r.
  - lia.
Qed.

Lemma continue_budget_first_boundary_witness :
  exists k d', zemu_debug_continue Toy.toy_state Toy.toy_run 20 0%nat Toy.toy_debug_loop 10
               = Some (cycles_after Toy.toy_run k 0%nat, machine_after Toy.toy_run k 0%nat, d')
    /\ (forall i, (i < k)%nat -> cycles_after Toy.toy_run i 0%nat < 10)
    /\ 10 <= cycles_after Toy.toy_run k 0%nat
    /\ ((k = 0%nat /\ cycles_after Toy.toy_run k 0%nat = 10)
        \/ ((1 <= k)%nat /\ cycles_after Toy.toy_run k 0%nat < 10 + step_cost Toy.toy_run (k - 1) 0%nat)).
Proof.
  apply continue_budget_first_boundary.
  - discriminate.
  - lia.
  - intros i. unfold step_cost. simpl. lia.
  - intros i H. destruct i as [|[|i]].
    + split; [vm_compute; reflexivity | intros F; exact F].
    + split; [vm_compute; reflexivity | intros F; exact F].
    + exfalso. specialize (H 3%nat ltac:(lia)). vm_compute in H. discriminate H.
  - simpl. lia.
Defined.

(** C6: with the budget -1, whenever [zemu_debug_continue] returns, the run
    state is [BREAK] or [HALTED]: the budget never ends the run, the loop
    keeps stepping while the state is [RUNNING]. *)
Theorem continue_unbounded_stops_on_break_or_halt {Machine} (z80_state : Machine -> Z80State) z80_run
    (fuel : nat) (m : Machine) (d : Debug) (c : Z) (m' : Machine) (d' : Debug) :
  zemu_debug_continue z80_state z80_run fuel m d (-1) = Some (c, m', d') ->
  zemu_debug_state d' = BREAK \/ zemu_debug_state d' = HALTED.
Proof.
  unfold zemu_debug_continue.
  destruct (RunState_eqb (zemu_debug_state d) HALTED) eqn:E; intros Hr.
  - cbn iota in Hr. injection Hr as _ _ <-. right. apply RunState_eqb_spec. exact E.
  - exact (continue_loop_unbounded_end z80_state z80_run fuel (0, m, set_state d RUNNING) (c, m', d')
             ltac:(simpl; discriminate) Hr).
Qed.

Lemma continue_unbounded_stops_on_break_or_halt_witness :
  zemu_debug_state (mkDebug BREAK (16 :: repeat 0 255) 1) = BREAK
  \/ zemu_debug_state (mkDebug BREAK (16 :: repeat 0 255) 1) = HALTED.
Proof.
  apply (continue_unbounded_stops_on_break_or_halt Toy.toy_state Toy.toy_run 10 0%nat Toy.toy_debug 16 4%nat).
  vm_compute. reflexivity.
Defined.

(** ** Further properties of the run loop *)

Section LoopResult.
Context {Machine : Type} (z80_state : Machine -> Z80State)
        (z80_run : Machine -> Z -> Z * Machine * list bool).

(** Whatever the loop returns is the state after some [k] iterations whose
    condition fails, every earlier condition having held. *)
Lemma continue_loop_result (fuel : nat) (run_cycles : Z) (st0 : Z * Machine * Debug) (j : nat)
    (r : Z * Machine * Debug) :
  continue_loop z80_state z80_run fuel run_cycles (run_n z80_state z80_run j st0) = Some r ->
  exists k, (j <= k)%nat /\ r = run_n z80_state z80_run k st0
    /\ loop_cond run_cycles (fst (fst r)) (snd r) = false
    /\ (forall i, (j <= i < k)%nat ->
          loop_cond run_cycles (fst (fst (run_n z80_state z80_run i st0)))
                               (snd (run_n z80_state z80_run i st0)) = true).
Proof.
  revert j. induction fuel as [|f IH]; intros j Hr; [discriminate|].
  cbn [continue_loop] in Hr.
  destruct (run_n z80_state z80_run j st0) as [[c m] d] eqn:Ej.
  cbv beta iota in Hr.
  destruct (loop_cond run_cycles c d) eqn:L.
  - rewrite <- Ej in Hr.
    change (loop_body z80_state z80_run (run_n z80_state z80_run j st0))
      with (run_n z80_state z80_run (S j) st0) in Hr.
    destruct (IH (S j) Hr) as (k & Hk & Er & Lk & Lt).
    exists k. split; [lia|]. split; [exact Er|]. split; [exact Lk|].
    intros i Hi. destruct (Nat.eq_dec i j) as [->|Ne]; [rewrite Ej; exact L|]. apply Lt. lia.
  - injection Hr as <-. exists j. split; [lia|]. split; [symmetry; exact Ej|].
    split; [exact L|]. intros i Hi. lia.
Qed.

Lemma run_n_state_defined (k : nat) (m : Machine) (d0 : Debug) :
  zemu_debug_state d0 <> UNDEFINED ->
  zemu_debug_state (snd (run_n z80_state z80_run k (0, m, d0))) <> UNDEFINED.
Proof.
  intros H0. induction k as [|k IH]; [exact H0|].
  rewrite run_n_S_state. destruct (breakpoint_member _ d0); [discriminate|].
  apply apply_halts_defined. exact IH.
Qed.

(** A returned [zemu_debug_continue] is the machine and accumulated cycles
    after some number [k] of steps, the debugger state of those steps from
    [set_state d RUNNING], or the untouched input when [d] is [HALTED]. *)
Lemma continue_result_shape (fuel : nat) (m : Machine) (d : Debug) (run_cycles : Z)
    (c : Z) (m' : Machine) (d' : Debug) :
  zemu_debug_continue z80_state z80_run fuel m d run_cycles = Some (c, m', d') ->
  (zemu_debug_state d = HALTED /\ c = 0 /\ m' = m /\ d' = d)
  \/ (zemu_debug_state d <> HALTED
      /\ exists k, (c, m', d') = run_n z80_state z80_run k (0, m, set_state d RUNNING)
         /\ loop_cond run_cycles c d' = false
         /\ (forall i, (i < k)%nat ->
              loop_cond run_cycles (fst (fst (run_n z80_state z80_run i (0, m, set_state d RUNNING))))
                (snd (run_n z80_state z80_run i (0, m, set_state d RUNNING))) = true)).
Proof.
  unfold zemu_debug_continue.
  destruct (RunState_eqb (zemu_debug_state d) HALTED) eqn:E; intros Hr.
  - left. apply RunState_eqb_spec in E. cbn iota in Hr. injection Hr as <- <- <-. auto.
  - right. split; [intros H; apply RunState_eqb_spec in H; congruence|].
    destruct (continue_loop_result fuel run_cycles (0, m, set_state d RUNNING) 0 (c, m', d') Hr)
      as (k & _ & Er & Lk & Lt).
    exists k. split; [exact Er|]. split; [exact Lk|]. intros i Hi. apply Lt. lia.
Qed.

End LoopResult.

(** [zemu_debug_continue] never changes the breakpoint array or count. *)
Theorem continue_keeps_breakpoints {Machine} (z80_state : Machine -> Z80State) z80_run
    (fuel : nat) (m : Machine) (d : Debug) (run_cycles c : Z) (m' : Machine) (d' : Debug) :
  zemu_debug_continue z80_state z80_run fuel m d run_cycles = Some (c, m', d') ->
  breakpoints d' = breakpoints d /\ breakpoint_count d' = breakpoint_count d.
Proof.
  intros Hr. destruct (continue_result_shape z80_state z80_run fuel m d run_cycles c m' d' Hr)
    as [(_ & _ & _ & ->) | (_ & k & Ek & _)]; [split; reflexivity|].
  destruct (run_n_debug_frame z80_state z80_run k m (set_state d RUNNING)) as [Fb Fc].
  rewrite <- Ek in Fb, Fc. split; assumption.
Qed.

Lemma continue_keeps_breakpoints_witness :
  breakpoints (mkDebug BREAK (16 :: repeat 0 255) 1) = breakpoints Toy.toy_debug
  /\ breakpoint_count (mkDebug BREAK (16 :: repeat 0 255) 1) = breakpoint_count Toy.toy_debug.
Proof.
  apply (continue_keeps_breakpoints Toy.toy_state Toy.toy_run 10 0%nat Toy.toy_debug (-1) 16 4%nat).
  vm_compute. reflexivity.
Defined.

(** Once [zemu_debug_continue] returns, the run state is never [UNDEFINED],
    also when it was [UNDEFINED] (start-up) before the call. *)
Theorem continue_state_defined {Machine} (z80_state : Machine -> Z80State) z80_run
    (fuel : nat) (m : Machine) (d : Debug) (run_cycles c : Z) (m' : Machine) (d' : Debug) :
  zemu_debug_continue z80_state z80_run fuel m d run_cycles = Some (c, m', d') ->
  zemu_debug_state d' <> UNDEFINED.
Proof.
  intros Hr. destruct (continue_result_shape z80_state z80_run fuel m d run_cycles c m' d' Hr)
    as [(H & _ & _ & ->) | (_ & k & Ek & _)]; [rewrite H; discriminate|].
  pose proof (run_n_state_defined z80_state z80_run k m (set_state d RUNNING) ltac:(simpl; discriminate)) as D.
  rewrite <- Ek in D. exact D.
Qed.

Lemma continue_state_defined_witness :
  zemu_debug_state (mkDebug BREAK (16 :: repeat 0 255) 1) <> UNDEFINED.
Proof.
  apply (continue_state_defined Toy.toy_state Toy.toy_run 10 0%nat Toy.toy_debug (-1) 16 4%nat).
  vm_compute. reflexivity.
Defined.

(** The value [zemu_debug_continue] returns is the sum (modulo 2^64) of the
    cycles of the instructions it ran, and the machine it leaves is the
    machine after exactly those instructions. *)
Theorem continue_returns_cycles_of_steps {Machine} (z80_state : Machine -> Z80State) z80_run
    (fuel : nat) (m : Machine) (d : Debug) (run_cycles c : Z) (m' : Machine) (d' : Debug) :
  zemu_debug_continue z80_state z80_run fuel m d run_cycles = Some (c, m', d') ->
  exists k, c = cycles_after z80_run k m /\ m' = machine_after z80_run k m.
Proof.
  intros Hr. destruct (continue_result_shape z80_state z80_run fuel m d run_cycles c m' d' Hr)
    as [(_ & -> & -> & _) | (_ & k & Ek & _)]; [exists 0%nat; split; reflexivity|].
  exists k. destruct (run_n_cycles_machine z80_state z80_run k m (set_state d RUNNING)) as [Cc Cm].
  rewrite <- Ek in Cc, Cm. simpl in Cc, Cm. split; assumption.
Qed.

Lemma continue_returns_cycles_of_steps_witness :
  exists k, 12 = cycles_after Toy.toy_run k 0%nat /\ 3%nat = machine_after Toy.toy_run k 0%nat.
Proof.
  apply (continue_returns_cycles_of_steps Toy.toy_state Toy.toy_run 20 0%nat debug_init 10 12 3%nat
           (mkDebug RUNNING (repeat 0 256) 0)).
  vm_compute. reflexivity.
Defined.

(** Unless the state is [HALTED] or the budget is 0, [zemu_debug_continue]
    runs at least one instruction, even when it is resumed in [BREAK] with
    the PC on a breakpoint. *)
Theorem continue_runs_at_least_one_step {Machine} (z80_state : Machine -> Z80State) z80_run
    (fuel : nat) (m : Machine) (d : Debug) (run_cycles c : Z) (m' : Machine) (d' : Debug) :
  zemu_debug_state d <> HALTED -> (run_cycles < 0 \/ 0 < run_cycles) ->
  zemu_debug_continue z80_state z80_run fuel m d run_cycles = Some (c, m', d') ->
  exists k, (1 <= k)%nat /\ (c, m', d') = run_n z80_state z80_run k (0, m, set_state d RUNNING).
Proof.
  intros Hh Hb Hr. destruct (continue_result_shape z80_state z80_run fuel m d run_cycles c m' d' Hr)
    as [(H & _) | (_ & k & Ek & Lk & _)]; [contradiction|].
  exists k. split; [|exact Ek].
  destruct k as [|k]; [|lia]. simpl in Ek. injection Ek as -> -> ->.
  unfold loop_cond in Lk. simpl in Lk.
  destruct Hb as [Hb | Hb]; [apply Z.ltb_lt in Hb | apply Z.ltb_lt in Hb]; rewrite Hb in Lk;
    [discriminate | rewrite orb_true_r in Lk; discriminate].
Qed.

Lemma continue_runs_at_least_one_step_witness :
  exists k, (1 <= k)%nat /\ (16, 4%nat, mkDebug BREAK (16 :: repeat 0 255) 1)
    = run_n Toy.toy_state Toy.toy_run k (0, 0%nat, set_state Toy.toy_debug RUNNING).
Proof.
  apply (continue_runs_at_least_one_step Toy.toy_state Toy.toy_run 10 0%nat Toy.toy_debug (-1)).
  - discriminate.
  - left. lia.
  - vm_compute. reflexivity.
Defined.

(** [zemu_debug_continue] returns in state [RUNNING] only when the budget is
    non-negative and the accumulated cycles have reached it. *)
Theorem continue_running_only_on_budget {Machine} (z80_state : Machine -> Z80State) z80_run
    (fuel : nat) (m : Machine) (d : Debug) (run_cycles c : Z) (m' : Machine) (d' : Debug) :
  zemu_debug_continue z80_state z80_run fuel m d run_cycles = Some (c, m', d') ->
  zemu_debug_state d' = RUNNING -> 0 <= run_cycles <= c.
Proof.
  intros Hr Hs. destruct (continue_result_shape z80_state z80_run fuel m d run_cycles c m' d' Hr)
    as [(H & _ & _ & ->) | (_ & k & _ & Lk & _)]; [congruence|].
  unfold loop_cond in Lk. rewrite Hs in Lk. simpl in Lk.
  apply orb_false_iff in Lk as [A B]. apply Z.ltb_ge in A, B. lia.
Qed.

Lemma continue_running_only_on_budget_witness : 0 <= 10 <= 12.
Proof.
  apply (continue_running_only_on_budget Toy.toy_state Toy.toy_run 20 0%nat debug_init 10 12 3%nat
           (mkDebug RUNNING (repeat 0 256) 0)).
  - vm_compute. reflexivity.
  - reflexivity.
Defined.

Lemma existsb_ext_in {A} (f g : A -> bool) (l : list A) :
  (forall x, In x l -> f x = g x) -> existsb f l = existsb g l.
Proof.
  induction l as [|x l IH]; intros H; [reflexivity|]. simpl.
  rewrite (H x (or_introl eq_refl)), IH; [reflexivity|]. intros y Hy. apply H. right. exact Hy.
Qed.

(** Inside the array, [zemu_debug_set_breakpoint] keeps the run state, adds
    one slot, and the addresses found afterwards are those found before plus
    the new one (a duplicate takes a slot of its own). *)
Theorem set_breakpoint_lookup (address : Z) (d : Debug) :
  (breakpoint_count d < length (breakpoints d))%nat ->
  exists d', zemu_debug_set_breakpoint address d = Defined d'
    /\ zemu_debug_state d' = zemu_debug_state d
    /\ breakpoint_count d' = S (breakpoint_count d)
    /\ forall x, breakpoint_member x d' = breakpoint_member x d || (x =? address).
Proof.
  intros Hlt.
  destruct (array_store_in_bounds (breakpoints d) (breakpoint_count d) address Hlt)
    as (arr & E & _ & N & O).
  exists (mkDebug (zemu_debug_state d) arr (S (breakpoint_count d))).
  unfold zemu_debug_set_breakpoint. rewrite E.
  split; [reflexivity|]. split; [reflexivity|]. split; [reflexivity|].
  intros x. unfold breakpoint_member. cbn [breakpoints breakpoint_count].
  rewrite seq_S, existsb_app. simpl. rewrite N, orb_false_r. f_equal.
  apply existsb_ext_in. intros b Hb. apply in_seq in Hb. rewrite O by lia. reflexivity.
Qed.

Lemma set_breakpoint_lookup_witness :
  exists d', zemu_debug_set_breakpoint 1 Toy.toy_debug = Defined d'
    /\ zemu_debug_state d' = zemu_debug_state Toy.toy_debug
    /\ breakpoint_count d' = S (breakpoint_count Toy.toy_debug)
    /\ forall x, breakpoint_member x d' = breakpoint_member x Toy.toy_debug || (x =? 1).
Proof. apply set_breakpoint_lookup. simpl. lia. Defined.

(** [zemu_debug_step] changes the debugger only through the calls the Z80
    core makes to the halt callback: the last call decides the run state,
    and with no call the debugger state is returned unchanged. *)
Theorem step_debug_effect {Machine} (z80_run : Machine -> Z -> Z * Machine * list bool)
    (m : Machine) (d : Debug) :
  snd (zemu_debug_step z80_run m d)
  = match rev (snd (z80_run m 1)) with
    | [] => d
    | b :: _ => zemu_debug_halt d b
    end.
Proof.
  unfold zemu_debug_step. destruct (z80_run m 1) as [[c m'] hs]. simpl.
  induction hs as [|b l IH] using rev_ind; [reflexivity|].
  rewrite rev_unit. unfold apply_halts. rewrite fold_left_app. simpl.
  fold (apply_halts d l). destruct (apply_halts_frame l d) as [Fb Fc].
  destruct b; unfold zemu_debug_halt, set_state; rewrite Fb, Fc; reflexivity.
Qed.

(** With the budget -1, a program that never lands on a breakpoint and never
    requests a halt keeps [zemu_debug_continue] running: for no number of
    loop iterations does it return. *)
Theorem continue_unbounded_never_returns {Machine} (z80_state : Machine -> Z80State) z80_run
    (m : Machine) (d : Debug) (run_cycles : Z) :
  zemu_debug_state d <> HALTED -> run_cycles < 0 ->
  (forall i, breakpoint_member (pc (z80_state (machine_after z80_run (S i) m))) d = false
             /\ ~ In true (step_halts z80_run i m)) ->
  forall fuel, zemu_debug_continue z80_state z80_run fuel m d run_cycles = None.
Proof.
  intros Hh Hneg Hquiet fuel.
  set (d0 := set_state d RUNNING).
  assert (Hrun : forall i, zemu_debug_state (snd (run_n z80_state z80_run i (0, m, d0))) = RUNNING).
  { induction i as [|i IH]; [reflexivity|].
    destruct (Hquiet i) as [Hmiss Hnohalt].
    rewrite run_n_S_state.
    replace (breakpoint_member (pc (z80_state (machine_after z80_run (S i) m))) d0) with false
      by (symmetry; exact Hmiss).
    apply apply_halts_no_request; assumption. }
  destruct (zemu_debug_continue z80_state z80_run fuel m d run_cycles) as [[[c m'] d']|] eqn:Hr;
    [|reflexivity].
  exfalso.
  destruct (continue_result_shape z80_state z80_run fuel m d run_cycles c m' d' Hr)
    as [(H & _) | (_ & k & Ek & Lk & _)]; [contradiction|].
  specialize (Hrun k). fold d0 in Ek. rewrite <- Ek in Hrun. simpl in Hrun.
  unfold loop_cond in Lk. rewrite Hrun in Lk. apply Z.ltb_lt in Hneg. rewrite Hneg in Lk.
  discriminate.
Qed.

Lemma continue_unbounded_never_returns_witness :
  zemu_debug_continue Toy.toy_state Toy.toy_run 100 0%nat debug_init (-1) = None.
Proof.
  apply continue_unbounded_never_returns; [discriminate | lia |].
  intros i. split; [reflexivity | intros H; exact H].
Defined.
